(** * acktest.k8s.condition: assertion helpers over resource conditions

    A shallow embedding of [src/acktest/k8s/condition.py].  The module is a
    set of five test assertions.  Each one reads a condition (a Python dict)
    through [resource.get_resource_condition], compares some of its fields and
    either returns [None] or raises: [pytest.fail] raises pytest's [Failed]
    exception, and a stray operation on [None] raises [AttributeError] or
    [TypeError] exactly as the interpreter does. *)

From stdpp Require Import base strings gmap list.

Local Open Scope string_scope.
#[local] Set Warnings "-clear-no-such-hyp".

(** ** Python values and the builtins the module uses *)

Module Py.

(** The values a condition field can hold: a condition comes from the JSON
    status of a custom resource, its recognised fields are scalars. *)
Inductive value : Type :=
| None_
| Bool (b : bool)
| Str (s : string).

#[global] Instance value_eq_dec : EqDecision value.
Proof. solve_decision. Defined.

(** [str(v)] *)
Definition str (v : value) : string :=
  match v with
  | None_ => "None"
  | Bool true => "True"
  | Bool false => "False"
  | Str s => s
  end.

(** [a == b]; values of different types are never equal. *)
Definition eqb (a b : value) : bool := bool_decide (a = b).

(** [sub in s] on two [str]: [sub] occurs in [s] as a contiguous run. *)
Fixpoint str_contains (sub s : string) : bool :=
  String.prefix sub s ||
  match s with
  | EmptyString => false
  | String _ s' => str_contains sub s'
  end.

(** A Python dict with string keys. *)
Abbreviation dict := (gmap string value).

(** [d.get(key, default)] on a dict. *)
Definition dict_get (d : dict) (key : string) (default : value) : value :=
  match d !! key with
  | Some v => v
  | None => default
  end.

(** The exceptions that can leave the module.  [Failed] is what
    [pytest.fail(msg)] raises. *)
Inductive exn : Type :=
| Failed (msg : string)
| AttributeError
| TypeError.

Inductive result (A : Type) : Type :=
| Ok (a : A)
| Raise (e : exn).
Arguments Ok {A} a.
Arguments Raise {A} e.

(** [item in container] where [item] is a [str]: substring search on a
    [str]; [None] and [bool] are not containers. *)
Definition contains (item : string) (container : value) : result bool :=
  match container with
  | Str s => Ok (str_contains item s)
  | None_ | Bool _ => Raise TypeError
  end.

End Py.

Import Py.

(** ** The [resource] module, as far as [condition] uses it *)

Module resource.

(** [CustomResourceReference] with its string form, and
    [get_resource_condition], which reads the live status of the referenced
    resource: it returns the condition of the given type or [None], and the
    cluster it read from may have moved on. *)
Class API : Type := {
  CustomResourceReference : Type;
  cluster : Type;
  ref_str : CustomResourceReference → string;
  get_resource_condition :
    CustomResourceReference → string → cluster → option dict * cluster;
}.

End resource.

(** ** The module *)

Definition CONDITION_TYPE_ADOPTED := "ACK.Adopted".
Definition CONDITION_TYPE_READY := "Ready".
Definition CONDITION_TYPE_RESOURCE_SYNCED := "ACK.ResourceSynced".
Definition CONDITION_TYPE_TERMINAL := "ACK.Terminal".
Definition CONDITION_TYPE_RECOVERABLE := "ACK.Recoverable".
Definition CONDITION_TYPE_ADVISORY := "ACK.Advisory".
Definition CONDITION_TYPE_LATE_INITIALIZED := "ACK.LateInitialized".
Definition CONDITION_TYPE_REFERENCES_RESOLVED := "ACK.ReferencesResolved".

Definition TERMINAL_REASON :=
  "Terminal error, the custom resource Spec needs to be updated before any further sync can occur".

Abbreviation Ref := resource.CustomResourceReference.

Section condition.
Context `{R : resource.API}.

(** What a call runs against: the cluster behind the accessor, and the
    reads made through the accessor so far, oldest first. *)
Record state : Type := State {
  st_cluster : resource.cluster;
  st_reads : list (Ref * string);
}.

(** A statement sequence: it runs from a state, and returns or raises. *)
Definition M (A : Type) : Type := state → result A * state.

Definition ret {A} (a : A) : M A := λ st, (Ok a, st).

Definition bind {A B} (m : M A) (k : A → M B) : M B :=
  λ st, match m st with
        | (Ok a, st') => k a st'
        | (Raise e, st') => (Raise e, st')
        end.

Definition raise {A} (e : exn) : M A := λ st, (Raise e, st).

#[global] Instance M_ret : MRet M := @ret.
#[global] Instance M_bind : MBind M := λ A B k m, bind m k.

(** [pytest.fail(msg)] *)
Definition pytest_fail {A} (msg : string) : M A := raise (Failed msg).

(** [resource.get_resource_condition(ref, cond_type)] *)
Definition call_get_resource_condition (ref : Ref) (cond_type : string)
  : M (option dict) :=
  λ st, let '(cond, c') :=
          resource.get_resource_condition ref cond_type (st_cluster st) in
        (Ok cond, State c' (st_reads st ++ [(ref, cond_type)])).

(** [cond.get(key, None)] where [cond] is what the accessor returned:
    [None] has no attribute [get]. *)
Definition cond_get (cond : option dict) (key : string) : M value :=
  match cond with
  | Some d => mret (dict_get d key None_)
  | None => raise AttributeError
  end.

(** [a in b], lifted. *)
Definition py_in (item : string) (container : value) : M bool :=
  match contains item container with
  | Ok b => mret b
  | Raise e => raise e
  end.

Definition assert_type_status
    (ref : Ref) (cond_type_match : string) (cond_status_match : bool)
  : M unit :=
  cond ← call_get_resource_condition ref cond_type_match;
  (if bool_decide (cond = None) then
     let msg := "Failed to find " +:+ cond_type_match +:+ " condition in "
                +:+ "resource " +:+ resource.ref_str ref in
     pytest_fail msg
   else mret ());;
  cond_status ← cond_get cond "status";
  if negb (String.eqb (str cond_status) (str (Bool cond_status_match))) then
    let msg := "Expected " +:+ cond_type_match +:+ " condition to "
               +:+ "have status " +:+ str (Bool cond_status_match)
               +:+ " but found " +:+ str cond_status in
    pytest_fail msg
  else mret ().

Definition assert_ready_status (ref : Ref) (cond_status_match : bool)
  : M unit :=
  assert_type_status ref "Ready" cond_status_match.

Definition assert_ready (ref : Ref) : M unit :=
  assert_ready_status ref true.

Definition assert_not_ready (ref : Ref) : M unit :=
  assert_ready_status ref false.

Definition assert_terminal (ref : Ref) (expected_message : string)
  : M unit :=
  assert_type_status ref "Ready" false;;
  cond ← call_get_resource_condition ref "Ready";
  reason ← cond_get cond "reason";
  (if negb (eqb reason (Str TERMINAL_REASON)) then
     let msg := "Expected Ready condition to "
                +:+ "have reason '" +:+ TERMINAL_REASON
                +:+ "' but found '" +:+ str reason +:+ "'" in
     pytest_fail msg
   else mret ());;
  message ← cond_get cond "message";
  found ← py_in expected_message message;
  if negb found then
    let msg := "Expected Ready condition to "
               +:+ "have message containing '" +:+ expected_message
               +:+ "' but found '" +:+ str message +:+ "'" in
    pytest_fail msg
  else mret ().

End condition.

(** ** What the properties speak of *)

(** [sub] occurs in [s]. *)
Definition includes (sub s : string) : Prop := str_contains sub s = true.

Section observations.
Context `{R : resource.API}.

(** What a call returns or raises from [st], and the state it leaves. *)
Definition outcome {A} (m : M A) (st : state) : result A := (m st).1.
Definition final {A} (m : M A) (st : state) : state := (m st).2.

(** What one read of [cond_type] on [ref] answers in [st], and the state
    after that one read and nothing else. *)
Definition fetched (ref : Ref) (cond_type : string) (st : state)
  : option dict :=
  (resource.get_resource_condition ref cond_type (st_cluster st)).1.

Definition after_read (ref : Ref) (cond_type : string) (st : state)
  : state :=
  State (resource.get_resource_condition ref cond_type (st_cluster st)).2
        (st_reads st ++ [(ref, cond_type)]).

(** The accessor answers a second read of [cond_type] on [ref] as it
    answered the first. *)
Definition stable (ref : Ref) (cond_type : string) (st : state) : Prop :=
  fetched ref cond_type (after_read ref cond_type st)
  = fetched ref cond_type st.

(** The four failure signals. *)
Definition condition_not_found (ref : Ref) (cond_type : string) : exn :=
  Failed ("Failed to find " +:+ cond_type +:+ " condition in resource "
          +:+ resource.ref_str ref).

Definition status_mismatch
    (cond_type : string) (expected : bool) (actual : value) : exn :=
  Failed ("Expected " +:+ cond_type +:+ " condition to have status "
          +:+ str (Bool expected) +:+ " but found " +:+ str actual).

Definition reason_mismatch (actual : value) : exn :=
  Failed ("Expected Ready condition to have reason '" +:+ TERMINAL_REASON
          +:+ "' but found '" +:+ str actual +:+ "'").

Definition message_mismatch (expected : string) (actual : value) : exn :=
  Failed ("Expected Ready condition to have message containing '"
          +:+ expected +:+ "' but found '" +:+ str actual +:+ "'").

(** The call signals a test failure: it ends in [pytest.fail], which raises
    [Failed] with a message.  Another exception leaving the call is a crash
    of the helper, not a signalled failure. *)
Definition signals_failure {A} (r : result A) : Prop :=
  ∃ msg, r = Raise (Failed msg).

(** [cond] is a condition with a [status] whose string form is ["False"],
    the terminal [reason], and a [message] in which [s] occurs. *)
Definition terminal_with (s : string) (cond : option dict) : Prop :=
  ∃ d v m,
    cond = Some d
    ∧ d !! "status" = Some v ∧ str v = "False"
    ∧ d !! "reason" = Some (Str TERMINAL_REASON)
    ∧ d !! "message" = Some (Str m) ∧ includes s m.

(** What the message of a failed status check has to hold, by the kind of
    the failure: the condition type and the string form of the reference
    when no condition was found; the expected and the found status when one
    was. *)
Definition status_failure_message
    (ref : Ref) (t : string) (b : bool) (st : state) (msg : string) : Prop :=
  match fetched ref t st with
  | None => includes t msg ∧ includes (resource.ref_str ref) msg
  | Some d =>
      includes (str (Bool b)) msg
      ∧ includes (str (dict_get d "status" None_)) msg
  end.

(** What the message of a failed [assert_terminal] has to hold, by the kind
    of the failure: that of the status check when the status check raised;
    the terminal reason and the found reason when the reason differs; the
    expected and the found message when the reason is the terminal one. *)
Definition terminal_failure_message
    (ref : Ref) (s : string) (st : state) (msg : string) : Prop :=
  match outcome (assert_type_status ref "Ready" false) st with
  | Raise _ => status_failure_message ref "Ready" false st msg
  | Ok _ =>
      match fetched ref "Ready" (after_read ref "Ready" st) with
      | None => False
      | Some d =>
          if decide (dict_get d "reason" None_ = Str TERMINAL_REASON)
          then includes s msg
               ∧ includes (str (dict_get d "message" None_)) msg
          else includes TERMINAL_REASON msg
               ∧ includes (str (dict_get d "reason" None_)) msg
      end
  end.

End observations.

(** ** Two accessors to run the module against *)

Module fixtures.

(** Modelled from the spec: [get_resource_condition] over a fixed snapshot
    of the resource's [status.conditions]; it returns the first condition
    whose [type] is the requested one, or [None].  Reading changes
    nothing. *)
Fixpoint first_of_type (cond_type : string) (conds : list dict)
  : option dict :=
  match conds with
  | [] => None
  | c :: rest =>
      if eqb (dict_get c "type" None_) (Str cond_type) then Some c
      else first_of_type cond_type rest
  end.

Definition snapshot : resource.API := {|
  resource.CustomResourceReference := string;
  resource.cluster := list dict;
  resource.ref_str := λ name, name;
  resource.get_resource_condition :=
    λ _ cond_type conds, (first_of_type cond_type conds, conds);
|}.

(** An accessor over a cluster that changes between reads: the cluster is
    the list of answers still to come, each read takes the next one, and
    [None] once they are used up. *)
Definition scripted : resource.API := {|
  resource.CustomResourceReference := string;
  resource.cluster := list (option dict);
  resource.ref_str := λ name, name;
  resource.get_resource_condition :=
    λ _ _ answers, match answers with
                   | [] => (None, [])
                   | a :: rest => (a, rest)
                   end;
|}.

Definition ready_true : dict :=
  {[ "type" := Str "Ready"; "status" := Str "True" ]}.

Definition ready_unknown : dict :=
  {[ "type" := Str "Ready"; "status" := Str "Unknown" ]}.

Definition ready_no_status : dict :=
  {[ "type" := Str "Ready" ]}.

Definition terminal : dict :=
  {[ "type" := Str "Ready"; "status" := Str "False";
     "reason" := Str TERMINAL_REASON;
     "message" := Str "field X is immutable" ]}.

Definition terminal_no_message : dict :=
  {[ "type" := Str "Ready"; "status" := Str "False";
     "reason" := Str TERMINAL_REASON ]}.

Definition terminal_no_reason : dict :=
  {[ "type" := Str "Ready"; "status" := Str "False";
     "message" := Str "field X is immutable" ]}.

(** A reason that holds the terminal reason and goes on. *)
Definition terminal_longer_reason : dict :=
  {[ "type" := Str "Ready"; "status" := Str "False";
     "reason" := Str (TERMINAL_REASON +:+ ": field X is immutable");
     "message" := Str "field X is immutable" ]}.

(** A [message] key that is there and holds [None]. *)
Definition terminal_null_message : dict :=
  {[ "type" := Str "Ready"; "status" := Str "False";
     "reason" := Str TERMINAL_REASON;
     "message" := None_ ]}.

(** A [status] that is the Python [False], not the string. *)
Definition ready_native_false : dict :=
  {[ "type" := Str "Ready"; "status" := Bool false ]}.

(** A state over each accessor, with no read made yet. *)
Definition snapshot_of (conds : list dict) : @state snapshot :=
  @State snapshot conds [].

Definition script_of (answers : list (option dict)) : @state scripted :=
  @State scripted answers [].

End fixtures.

(** ** Substring search *)

Section substring.

#[local] Arguments String.append !_ _ / : simpl nomatch.

Lemma str_app_assoc (a b c : string) : (a +:+ b) +:+ c = a +:+ b +:+ c.
Proof. induction a as [|x a IH]; [done|]. cbn. by rewrite IH. Qed.

Lemma str_app_nil_r (a : string) : a +:+ "" = a.
Proof. induction a as [|x a IH]; [done|]. cbn. by rewrite IH. Qed.

Lemma prefix_app (sub rest : string) : String.prefix sub (sub +:+ rest) = true.
Proof.
  induction sub as [|x sub IH]; cbn; [by destruct rest|].
  by destruct (Ascii.ascii_dec x x).
Qed.

Lemma prefix_inv (sub s : string) :
  String.prefix sub s = true → ∃ rest, s = sub +:+ rest.
Proof.
  revert sub. induction s as [|y s IH]; intros [|x sub]; cbn; try done.
  - by exists "".
  - by exists (String y s).
  - destruct (Ascii.ascii_dec x y) as [->|]; [|done].
    intros [rest ->]%IH. by exists rest.
Qed.

(** [str_contains sub s] holds exactly when [s] is [sub] with something
    before and something after. *)
Lemma str_contains_spec (sub s : string) :
  str_contains sub s = true ↔ ∃ pre post, s = pre +:+ sub +:+ post.
Proof.
  split.
  - induction s as [|y s IH]; cbn [str_contains]; rewrite orb_true_iff.
    + intros [[rest ->]%prefix_inv|]; [|done]. by exists "", rest.
    + intros [[rest ->]%prefix_inv|[pre [post ->]]%IH].
      * by exists "", rest.
      * by exists (String y pre), post.
  - intros (pre & post & ->).
    induction pre as [|y pre IH].
    + change ("" +:+ sub +:+ post) with (sub +:+ post).
      destruct (sub +:+ post) eqn:E; cbn [str_contains];
        rewrite <- E, prefix_app; done.
    + change (String y pre +:+ sub +:+ post)
        with (String y (pre +:+ sub +:+ post)).
      cbn [str_contains]. rewrite IH. apply orb_true_r.
Qed.

Lemma includes_refl (s : string) : includes s s.
Proof. apply str_contains_spec. exists "", "". by rewrite str_app_nil_r. Qed.

Lemma includes_here (sub rest : string) : includes sub (sub +:+ rest).
Proof. apply str_contains_spec. by exists "", rest. Qed.

Lemma includes_app_r (sub a b : string) :
  includes sub b → includes sub (a +:+ b).
Proof.
  intros (pre & post & ->)%str_contains_spec. apply str_contains_spec.
  exists (a +:+ pre), post. by rewrite str_app_assoc.
Qed.

End substring.

Create HintDb includes.
#[global] Hint Resolve includes_refl includes_here includes_app_r : includes.

(** ** Running the assertions *)

Section running.
Context `{R : resource.API}.

Ltac run_steps :=
  unfold mbind, mret, M_bind, M_ret, bind, ret, pytest_fail, raise,
    cond_get, py_in;
  cbn.

Lemma call_get_resource_condition_run ref t st :
  call_get_resource_condition ref t st
  = (Ok (fetched ref t st), after_read ref t st).
Proof.
  unfold call_get_resource_condition, fetched, after_read.
  by destruct (resource.get_resource_condition ref t (st_cluster st)).
Qed.

Lemma bind_run {A B} (m : M A) (k : A → M B) st :
  (m ≫= k) st = match m st with
                | (Ok a, st') => k a st'
                | (Raise e, st') => (Raise e, st')
                end.
Proof. done. Qed.

(** [assert_type_status] is one read and a verdict on its answer. *)
Lemma assert_type_status_run ref t b st :
  assert_type_status ref t b st
  = (match fetched ref t st with
     | None => Raise (condition_not_found ref t)
     | Some d =>
         let actual := dict_get d "status" None_ in
         if String.eqb (str actual) (str (Bool b)) then Ok ()
         else Raise (status_mismatch t b actual)
     end, after_read ref t st).
Proof.
  unfold assert_type_status.
  rewrite bind_run, call_get_resource_condition_run.
  destruct (fetched ref t st) as [d|]; [|done].
  run_steps. by destruct (String.eqb _ _).
Qed.


(** [assert_terminal] is [assert_type_status] on [Ready] and [False], and,
    when that returns, a second read and a verdict on its answer. *)
Lemma assert_terminal_run ref s st :
  assert_terminal ref s st
  = match outcome (assert_type_status ref "Ready" false) st with
    | Raise e => (Raise e, after_read ref "Ready" st)
    | Ok _ =>
        (match fetched ref "Ready" (after_read ref "Ready" st) with
         | None => Raise AttributeError
         | Some d =>
             let reason := dict_get d "reason" None_ in
             if eqb reason (Str TERMINAL_REASON) then
               match dict_get d "message" None_ with
               | Str m => if str_contains s m then Ok ()
                          else Raise (message_mismatch s (Str m))
               | None_ | Bool _ => Raise TypeError
               end
             else Raise (reason_mismatch reason)
         end, after_read ref "Ready" (after_read ref "Ready" st))
    end.
Proof.
  unfold assert_terminal, outcome.
  rewrite bind_run, assert_type_status_run. cbn [fst].
  destruct (match fetched ref "Ready" st with None => _ | Some _ => _ end)
    as [[]|e]; [|done].
  rewrite bind_run, call_get_resource_condition_run.
  destruct (fetched ref "Ready" (after_read ref "Ready" st)) as [d|]; [|done].
  run_steps. destruct (eqb _ _); [|done]. cbn.
  destruct (dict_get d "message" None_) as [|b|m]; try done.
  cbn. by destruct (str_contains s m).
Qed.

Lemma outcome_assert_type_status ref t b st :
  outcome (assert_type_status ref t b) st
  = match fetched ref t st with
    | None => Raise (condition_not_found ref t)
    | Some d =>
        let actual := dict_get d "status" None_ in
        if String.eqb (str actual) (str (Bool b)) then Ok ()
        else Raise (status_mismatch t b actual)
    end.
Proof. unfold outcome. by rewrite assert_type_status_run. Qed.

Lemma str_Bool_negb b : String.eqb (str (Bool b)) (str (Bool (negb b))) = false.
Proof. by destruct b. Qed.

Lemma condition_not_found_not_status_mismatch ref t t' b v :
  condition_not_found ref t ≠ status_mismatch t' b v.
Proof. unfold condition_not_found, status_mismatch. intros [=]. Qed.

(** C3: when the accessor answers for type [t] with a condition whose
    [status] is the string form of [b], [assert_type_status ref t b] returns,
    and [assert_type_status ref t (not b)] fails with a status mismatch. *)
Theorem assert_type_status_on_status_of_bool ref t b st d :
  fetched ref t st = Some d →
  d !! "status" = Some (Str (str (Bool b))) →
  outcome (assert_type_status ref t b) st = Ok ()
  ∧ outcome (assert_type_status ref t (negb b)) st
    = Raise (status_mismatch t (negb b) (Str (str (Bool b)))).
Proof.
  intros Hfetch Hstatus.
  rewrite !outcome_assert_type_status, Hfetch.
  unfold dict_get. rewrite Hstatus.
  change (str (Str (str (Bool b)))) with (str (Bool b)).
  by rewrite String.eqb_refl, str_Bool_negb.
Qed.

(** C4: when the accessor answers [None] for type [t],
    [assert_type_status ref t expected] fails with condition-not-found
    whatever [expected] is; the message holds [t] and the string form of
    [ref], and it is not a status mismatch. *)
Theorem assert_type_status_absent_condition ref t expected st :
  fetched ref t st = None →
  ∃ msg,
    outcome (assert_type_status ref t expected) st = Raise (Failed msg)
    ∧ Failed msg = condition_not_found ref t
    ∧ includes t msg
    ∧ includes (resource.ref_str ref) msg
    ∧ ∀ actual, Failed msg ≠ status_mismatch t expected actual.
Proof.
  intros Hfetch. eexists. rewrite outcome_assert_type_status, Hfetch.
  split; [reflexivity|]. split; [reflexivity|].
  split; [auto 10 with includes|]. split; [auto 10 with includes|].
  intros actual. apply condition_not_found_not_status_mismatch.
Qed.

(** C5: [assert_ready ref] runs as [assert_type_status ref "Ready" True],
    [assert_not_ready ref] as [assert_type_status ref "Ready" False], and
    [assert_ready_status ref b] as [assert_type_status ref "Ready" b]: same
    result, same state left, from every state. *)
Theorem ready_assertions_delegate ref b st :
  assert_ready ref st = assert_type_status ref "Ready" true st
  ∧ assert_not_ready ref st = assert_type_status ref "Ready" false st
  ∧ assert_ready_status ref b st = assert_type_status ref "Ready" b st.
Proof. by unfold assert_ready, assert_not_ready, assert_ready_status. Qed.

(** C7: the status is compared as a string.  With expected status [True],
    a raw status ["True"] passes; ["False"], ["Unknown"] and a missing
    [status] key each fail with a status mismatch, which is not
    condition-not-found; and ["Unknown"] fails against both expected
    values. *)
Theorem assert_type_status_compares_strings ref t st d :
  fetched ref t st = Some d →
  (d !! "status" = Some (Str "True") →
   outcome (assert_type_status ref t true) st = Ok ())
  ∧ (d !! "status" = Some (Str "False") →
     outcome (assert_type_status ref t true) st
     = Raise (status_mismatch t true (Str "False")))
  ∧ (d !! "status" = Some (Str "Unknown") →
     ∀ b, outcome (assert_type_status ref t b) st
          = Raise (status_mismatch t b (Str "Unknown")))
  ∧ (d !! "status" = None →
     outcome (assert_type_status ref t true) st
     = Raise (status_mismatch t true None_))
  ∧ ∀ b actual, status_mismatch t b actual ≠ condition_not_found ref t.
Proof.
  intros Hfetch.
  repeat split;
    try (intros Hstatus; try intros b;
         rewrite outcome_assert_type_status, Hfetch;
         unfold dict_get; rewrite Hstatus; by try destruct b).
  intros b actual Heq. symmetry in Heq.
  by apply condition_not_found_not_status_mismatch in Heq.
Qed.

(** C8, amended: every call of [assert_type_status], [assert_ready_status],
    [assert_ready] and [assert_not_ready] leaves the state of exactly one
    read; a call of [assert_terminal] leaves the state of exactly two reads
    of [Ready] when its status check returns, and of exactly one read when
    the status check raises. *)
Theorem reads_of_each_assertion ref t b s st :
  final (assert_type_status ref t b) st = after_read ref t st
  ∧ final (assert_ready_status ref b) st = after_read ref "Ready" st
  ∧ final (assert_ready ref) st = after_read ref "Ready" st
  ∧ final (assert_not_ready ref) st = after_read ref "Ready" st
  ∧ final (assert_terminal ref s) st
    = match outcome (assert_type_status ref "Ready" false) st with
      | Ok _ => after_read ref "Ready" (after_read ref "Ready" st)
      | Raise _ => after_read ref "Ready" st
      end.
Proof.
  unfold final, assert_ready, assert_not_ready, assert_ready_status.
  rewrite !assert_type_status_run, assert_terminal_run.
  repeat split. by destruct (outcome _ st).
Qed.

(** C9: [assert_terminal] uses the condition it fetched again without
    testing it for [None]; when the accessor answers the second read of
    [Ready] as it answered the first, a status check that returned means
    the second answer is a condition, and [assert_terminal] never raises
    the [AttributeError] of a field access on [None]. *)
Theorem assert_terminal_refetch_is_present ref s st :
  stable ref "Ready" st →
  (outcome (assert_type_status ref "Ready" false) st = Ok () →
   is_Some (fetched ref "Ready" (after_read ref "Ready" st)))
  ∧ outcome (assert_terminal ref s) st ≠ Raise AttributeError.
Proof.
  unfold stable. intros Hstable.
  unfold outcome at 2. rewrite assert_terminal_run.
  rewrite outcome_assert_type_status, Hstable.
  destruct (fetched ref "Ready" st) as [d|]; cbn [fst]; [|done].
  split; [by eauto|].
  destruct (String.eqb _ _); [|done]. cbn.
  destruct (eqb _ _); [|done].
  destruct (dict_get d "message" None_) as [| |m]; try done.
  by destruct (str_contains s m).
Qed.

(** C10: when the status check returned and the condition fetched again has
    no [reason] key, [assert_terminal] fails with a reason mismatch, whatever
    the [message] key holds or lacks. *)
Theorem assert_terminal_missing_reason ref s st d :
  outcome (assert_type_status ref "Ready" false) st = Ok () →
  fetched ref "Ready" (after_read ref "Ready" st) = Some d →
  d !! "reason" = None →
  outcome (assert_terminal ref s) st = Raise (reason_mismatch None_).
Proof.
  intros Hstatus Hfetch Hreason.
  unfold outcome at 1. rewrite assert_terminal_run, Hstatus, Hfetch.
  unfold dict_get. by rewrite Hreason.
Qed.

Lemma status_is_False (d : dict) :
  String.eqb (str (dict_get d "status" None_)) (str (Bool false)) = true
  ↔ ∃ v, d !! "status" = Some v ∧ str v = "False".
Proof.
  unfold dict_get. rewrite String.eqb_eq.
  destruct (d !! "status") as [v|]; split; try done; try naive_solver.
Qed.

Lemma reason_is_terminal (d : dict) :
  eqb (dict_get d "reason" None_) (Str TERMINAL_REASON) = true
  ↔ d !! "reason" = Some (Str TERMINAL_REASON).
Proof.
  unfold eqb, dict_get. rewrite bool_decide_eq_true.
  destruct (d !! "reason"); naive_solver.
Qed.

Lemma message_contains (d : dict) (s : string) :
  match dict_get d "message" None_ with
  | Str m => str_contains s m = true
  | None_ | Bool _ => False
  end
  ↔ ∃ m, d !! "message" = Some (Str m) ∧ includes s m.
Proof.
  unfold dict_get, includes.
  destruct (d !! "message") as [[| |m]|]; naive_solver.
Qed.

(** When [assert_terminal] returns, read by read. *)
Lemma assert_terminal_returns ref s st :
  outcome (assert_terminal ref s) st = Ok ()
  ↔ (∃ d v, fetched ref "Ready" st = Some d
            ∧ d !! "status" = Some v ∧ str v = "False")
    ∧ (∃ d m, fetched ref "Ready" (after_read ref "Ready" st) = Some d
              ∧ d !! "reason" = Some (Str TERMINAL_REASON)
              ∧ d !! "message" = Some (Str m) ∧ includes s m).
Proof.
  unfold outcome at 1. rewrite assert_terminal_run, outcome_assert_type_status.
  destruct (fetched ref "Ready" st) as [d1|]; [|naive_solver].
  cbn zeta. pose proof (status_is_False d1) as Hs.
  destruct (String.eqb _ _); [|naive_solver]. cbn [fst].
  destruct (fetched ref "Ready" (after_read ref "Ready" st)) as [d2|];
    [|naive_solver].
  cbn zeta. pose proof (reason_is_terminal d2) as Hr.
  pose proof (message_contains d2 s) as Hm.
  destruct (eqb _ _); [|naive_solver].
  destruct (dict_get d2 "message" None_) as [| |m]; [naive_solver..|].
  destruct (str_contains s m); naive_solver.
Qed.

(** With the status and the reason as a terminal condition has them and no
    [message] key, the substring test is made on [None] and raises. *)
Lemma assert_terminal_without_message ref s st d :
  outcome (assert_type_status ref "Ready" false) st = Ok () →
  fetched ref "Ready" (after_read ref "Ready" st) = Some d →
  d !! "reason" = Some (Str TERMINAL_REASON) →
  d !! "message" = None →
  outcome (assert_terminal ref s) st = Raise TypeError.
Proof.
  intros Hstatus Hfetch Hreason%reason_is_terminal Hmessage.
  unfold outcome at 1. rewrite assert_terminal_run, Hstatus, Hfetch.
  cbn zeta. rewrite Hreason. unfold dict_get. by rewrite Hmessage.
Qed.

(** With an accessor that answers both reads of [Ready] alike,
    [assert_terminal ref s] returns exactly when that answer is a condition
    whose [status] has the string form ["False"], whose [reason] is
    [TERMINAL_REASON] and whose [message] holds [s]. *)
Lemma assert_terminal_returns_iff ref s st :
  stable ref "Ready" st →
  outcome (assert_terminal ref s) st = Ok ()
  ↔ terminal_with s (fetched ref "Ready" st).
Proof.
  unfold stable. intros Hstable.
  rewrite assert_terminal_returns, Hstable. unfold terminal_with.
  split.
  - intros [(d & v & Hd & Hv & Hstr) (d' & m & Hd' & Hr & Hm & Hin)].
    exists d, v, m. by simplify_eq.
  - intros (d & v & m & Hd & Hv & Hstr & Hr & Hm & Hin).
    split; [by exists d, v | by exists d, m].
Qed.

(** With such an accessor, a call that does not return signals a failure,
    but for one case: status and reason pass and the [message] is not a
    string; then the call raises [TypeError]. *)
Lemma assert_terminal_failure_kinds ref s st :
  stable ref "Ready" st →
  ¬ terminal_with s (fetched ref "Ready" st) →
  signals_failure (outcome (assert_terminal ref s) st)
  ∨ (outcome (assert_terminal ref s) st = Raise TypeError
     ∧ ∃ d, fetched ref "Ready" st = Some d
            ∧ ∀ m, d !! "message" ≠ Some (Str m)).
Proof.
  intros Hstable Hnot.
  assert (outcome (assert_terminal ref s) st ≠ Ok ()) as Hne.
  { intros Hok. by apply Hnot, (assert_terminal_returns_iff _ _ _ Hstable). }
  revert Hne. unfold stable in Hstable. unfold signals_failure, outcome at 1 2 3.
  rewrite assert_terminal_run, outcome_assert_type_status, Hstable.
  destruct (fetched ref "Ready" st) as [d|]; cbn zeta;
    [|intros _; left; by eexists].
  destruct (String.eqb _ _); cbn [fst]; [|intros _; left; by eexists].
  destruct (eqb _ _); [|intros _; left; by eexists].
  unfold dict_get.
  destruct (d !! "message") as [[| |m]|] eqn:Hm.
  - intros _. right. split; [done|]. exists d. split; [done|].
    intros m. by rewrite Hm.
  - intros _. right. split; [done|]. exists d. split; [done|].
    intros m. by rewrite Hm.
  - destruct (str_contains s m); [done|]. intros _. left. by eexists.
  - intros _. right. split; [done|]. exists d. split; [done|].
    intros m. by rewrite Hm.
Qed.

Lemma assert_type_status_message ref t b st msg :
  outcome (assert_type_status ref t b) st = Raise (Failed msg) →
  status_failure_message ref t b st msg.
Proof.
  rewrite outcome_assert_type_status. unfold status_failure_message.
  destruct (fetched ref t st) as [d|].
  - cbn zeta. destruct (String.eqb _ _); [done|].
    unfold status_mismatch. intros [= <-]. split; auto 10 with includes.
  - unfold condition_not_found. intros [= <-]. split; auto 10 with includes.
Qed.

(** C6, amended: whenever an assertion fails through [pytest.fail], its
    message holds what belongs to the kind of the failure.  No condition
    found: the condition type and the string form of the reference.  Status
    mismatch: the expected and the found status.  Reason mismatch: the
    terminal reason and the found reason.  Message mismatch: the expected
    and the found message. *)
Theorem failure_messages_hold ref t b s st msg :
  (outcome (assert_type_status ref t b) st = Raise (Failed msg) →
   status_failure_message ref t b st msg)
  ∧ (outcome (assert_ready_status ref b) st = Raise (Failed msg) →
     status_failure_message ref "Ready" b st msg)
  ∧ (outcome (assert_ready ref) st = Raise (Failed msg) →
     status_failure_message ref "Ready" true st msg)
  ∧ (outcome (assert_not_ready ref) st = Raise (Failed msg) →
     status_failure_message ref "Ready" false st msg)
  ∧ (outcome (assert_terminal ref s) st = Raise (Failed msg) →
     terminal_failure_message ref s st msg).
Proof.
  repeat split; try apply assert_type_status_message.
  unfold terminal_failure_message, outcome at 1. rewrite assert_terminal_run.
  destruct (outcome (assert_type_status ref "Ready" false) st)
    as [[]|e] eqn:Hstatus; cbn [fst].
  - destruct (fetched ref "Ready" (after_read ref "Ready" st)) as [d|];
      [|done].
    cbn zeta. unfold eqb.
    destruct (decide (dict_get d "reason" None_ = Str TERMINAL_REASON)).
    + rewrite bool_decide_eq_true_2 by done.
      destruct (dict_get d "message" None_) as [| |m]; try done.
      destruct (str_contains s m); [done|].
      unfold message_mismatch. intros [= <-]. split; auto 10 with includes.
    + rewrite bool_decide_eq_false_2 by done.
      unfold reason_mismatch. intros [= <-]. split; auto 10 with includes.
  - intros [= ->]. by apply assert_type_status_message.
Qed.

End running.

(** ** The assertions on concrete clusters *)

Import fixtures.

(** The scenarios of the specification. *)
Example ready_condition_true :
  outcome (assert_ready (R:=snapshot) "db-1") (snapshot_of [ready_true])
  = Ok ()
  ∧ outcome (assert_not_ready (R:=snapshot) "db-1") (snapshot_of [ready_true])
    = Raise (Failed
        "Expected Ready condition to have status False but found True").
Proof. by vm_compute. Qed.

Example ready_condition_absent :
  outcome (assert_ready (R:=snapshot) "db-1") (snapshot_of [])
  = Raise (Failed "Failed to find Ready condition in resource db-1").
Proof. by vm_compute. Qed.

Example terminal_condition :
  outcome (assert_terminal (R:=snapshot) "db-1" "immutable")
          (snapshot_of [terminal])
  = Ok ()
  ∧ outcome (assert_terminal (R:=snapshot) "db-1" "unknown field")
            (snapshot_of [terminal])
    = Raise (Failed
        "Expected Ready condition to have message containing 'unknown field' but found 'field X is immutable'").
Proof. by vm_compute. Qed.

(** When the condition is gone by the second read, the field access on
    [None] raises. *)
Example terminal_condition_gone_on_second_read :
  outcome (assert_terminal (R:=scripted) "db-1" "immutable")
          (script_of [Some terminal; None])
  = Raise AttributeError.
Proof. by vm_compute. Qed.

(** C1: on a [Ready] condition with status ["False"], the terminal reason
    and no [message] key, [assert_terminal] does not fail with a message
    mismatch: [expected_message not in None] raises a [TypeError]. *)
Theorem assert_terminal_missing_message_raises_TypeError :
  fetched (R:=snapshot) "db-1" "Ready" (snapshot_of [terminal_no_message])
  = Some terminal_no_message
  ∧ terminal_no_message !! "status" = Some (Str "False")
  ∧ terminal_no_message !! "reason" = Some (Str TERMINAL_REASON)
  ∧ terminal_no_message !! "message" = None
  ∧ outcome (assert_terminal (R:=snapshot) "db-1" "immutable")
            (snapshot_of [terminal_no_message])
    = Raise TypeError
  ∧ Raise TypeError
    ≠ Raise (A:=unit) (message_mismatch "immutable" None_).
Proof. by vm_compute. Qed.

Lemma assert_type_status_on_status_of_bool_witness :
  fetched (R:=snapshot) "db-1" "Ready" (snapshot_of [ready_true])
  = Some ready_true
  ∧ ready_true !! "status" = Some (Str (str (Bool true)))
  ∧ outcome (assert_type_status (R:=snapshot) "db-1" "Ready" true)
            (snapshot_of [ready_true])
    = Ok ()
  ∧ outcome (assert_type_status (R:=snapshot) "db-1" "Ready" (negb true))
            (snapshot_of [ready_true])
    = Raise (status_mismatch "Ready" (negb true) (Str (str (Bool true)))).
Proof.
  assert (fetched (R:=snapshot) "db-1" "Ready" (snapshot_of [ready_true])
          = Some ready_true) as Hfetch by (vm_compute; reflexivity).
  assert (ready_true !! "status" = Some (Str (str (Bool true)))) as Hstatus
    by (vm_compute; reflexivity).
  split; [exact Hfetch|]. split; [exact Hstatus|].
  exact (assert_type_status_on_status_of_bool
           (R:=snapshot) "db-1" "Ready" true _ _ Hfetch Hstatus).
Defined.

Lemma assert_type_status_absent_condition_witness :
  fetched (R:=snapshot) "db-1" "ACK.ResourceSynced" (snapshot_of [ready_true])
  = None
  ∧ ∃ msg,
      outcome (assert_type_status (R:=snapshot) "db-1" "ACK.ResourceSynced"
                                  false)
              (snapshot_of [ready_true])
      = Raise (Failed msg)
      ∧ Failed msg = condition_not_found (R:=snapshot) "db-1"
                                         "ACK.ResourceSynced"
      ∧ includes "ACK.ResourceSynced" msg
      ∧ includes "db-1" msg
      ∧ ∀ actual,
          Failed msg ≠ status_mismatch "ACK.ResourceSynced" false actual.
Proof.
  assert (fetched (R:=snapshot) "db-1" "ACK.ResourceSynced"
                  (snapshot_of [ready_true]) = None) as Hfetch
    by (vm_compute; reflexivity).
  split; [exact Hfetch|].
  exact (assert_type_status_absent_condition
           (R:=snapshot) "db-1" "ACK.ResourceSynced" false _ Hfetch).
Defined.

Lemma assert_type_status_compares_strings_witness :
  outcome (assert_type_status (R:=snapshot) "db-1" "Ready" true)
          (snapshot_of [ready_true])
  = Ok ()
  ∧ outcome (assert_type_status (R:=snapshot) "db-1" "Ready" true)
            (snapshot_of [terminal])
    = Raise (status_mismatch "Ready" true (Str "False"))
  ∧ (∀ b, outcome (assert_type_status (R:=snapshot) "db-1" "Ready" b)
                  (snapshot_of [ready_unknown])
          = Raise (status_mismatch "Ready" b (Str "Unknown")))
  ∧ outcome (assert_type_status (R:=snapshot) "db-1" "Ready" true)
            (snapshot_of [ready_no_status])
    = Raise (status_mismatch "Ready" true None_).
Proof.
  pose proof (λ d (H : fetched (R:=snapshot) "db-1" "Ready" (snapshot_of [d])
                       = Some d),
              assert_type_status_compares_strings
                (R:=snapshot) "db-1" "Ready" (snapshot_of [d]) d H) as Hclaim.
  split; [|split; [|split]].
  - apply (Hclaim ready_true); vm_compute; reflexivity.
  - apply (Hclaim terminal); vm_compute; reflexivity.
  - apply (Hclaim ready_unknown); vm_compute; reflexivity.
  - apply (Hclaim ready_no_status); vm_compute; reflexivity.
Defined.

Lemma assert_terminal_refetch_is_present_witness :
  stable (R:=snapshot) "db-1" "Ready" (snapshot_of [terminal])
  ∧ outcome (assert_type_status (R:=snapshot) "db-1" "Ready" false)
            (snapshot_of [terminal])
    = Ok ()
  ∧ is_Some (fetched (R:=snapshot) "db-1" "Ready"
               (after_read (R:=snapshot) "db-1" "Ready"
                           (snapshot_of [terminal])))
  ∧ outcome (assert_terminal (R:=snapshot) "db-1" "immutable")
            (snapshot_of [terminal])
    ≠ Raise AttributeError.
Proof.
  assert (stable (R:=snapshot) "db-1" "Ready" (snapshot_of [terminal]))
    as Hstable by reflexivity.
  assert (outcome (assert_type_status (R:=snapshot) "db-1" "Ready" false)
                  (snapshot_of [terminal]) = Ok ()) as Hstatus
    by (vm_compute; reflexivity).
  destruct (assert_terminal_refetch_is_present
              (R:=snapshot) "db-1" "immutable" _ Hstable) as [Hsome Hnot].
  split; [exact Hstable|]. split; [exact Hstatus|].
  split; [exact (Hsome Hstatus) | exact Hnot].
Defined.

Lemma assert_terminal_missing_reason_witness :
  outcome (assert_type_status (R:=snapshot) "db-1" "Ready" false)
          (snapshot_of [terminal_no_reason])
  = Ok ()
  ∧ fetched (R:=snapshot) "db-1" "Ready"
      (after_read (R:=snapshot) "db-1" "Ready"
                  (snapshot_of [terminal_no_reason]))
    = Some terminal_no_reason
  ∧ terminal_no_reason !! "reason" = None
  ∧ outcome (assert_terminal (R:=snapshot) "db-1" "immutable")
            (snapshot_of [terminal_no_reason])
    = Raise (reason_mismatch None_).
Proof.
  assert (outcome (assert_type_status (R:=snapshot) "db-1" "Ready" false)
                  (snapshot_of [terminal_no_reason]) = Ok ()) as Hstatus
    by (vm_compute; reflexivity).
  assert (fetched (R:=snapshot) "db-1" "Ready"
            (after_read (R:=snapshot) "db-1" "Ready"
                        (snapshot_of [terminal_no_reason]))
          = Some terminal_no_reason) as Hfetch by (vm_compute; reflexivity).
  assert (terminal_no_reason !! "reason" = None) as Hreason
    by (vm_compute; reflexivity).
  split; [exact Hstatus|]. split; [exact Hfetch|]. split; [exact Hreason|].
  exact (assert_terminal_missing_reason
           (R:=snapshot) "db-1" "immutable" _ _ Hstatus Hfetch Hreason).
Defined.

(** C2: on a [Ready] condition with status ["False"], the terminal reason
    and no [message] key, one of the three facts does not hold, and yet
    [assert_terminal] signals no test failure: it does not return, and what
    leaves it is the [TypeError] of [expected_message not in None], not the
    [Failed] of [pytest.fail]. *)
Theorem assert_terminal_missing_message_signals_no_failure :
  stable (R:=snapshot) "db-1" "Ready" (snapshot_of [terminal_no_message])
  ∧ ¬ terminal_with "immutable"
        (fetched (R:=snapshot) "db-1" "Ready"
                 (snapshot_of [terminal_no_message]))
  ∧ outcome (assert_terminal (R:=snapshot) "db-1" "immutable")
            (snapshot_of [terminal_no_message])
    = Raise TypeError
  ∧ ¬ signals_failure
        (outcome (assert_terminal (R:=snapshot) "db-1" "immutable")
                 (snapshot_of [terminal_no_message])).
Proof.
  split; [reflexivity|]. split; [|split].
  - intros (d & v & m & Hd & _ & _ & _ & Hmessage & _).
    vm_compute in Hd. injection Hd as <-. vm_compute in Hmessage.
    discriminate Hmessage.
  - vm_compute; reflexivity.
  - intros [msg Hmsg]. vm_compute in Hmsg. discriminate Hmsg.
Qed.

(** C6, as stated, fails: the message of a status mismatch does not hold
    the string form of the reference. *)
Lemma status_mismatch_message_lacks_reference :
  outcome (assert_not_ready (R:=snapshot) "db-1") (snapshot_of [ready_true])
  = Raise (Failed
      "Expected Ready condition to have status False but found True")
  ∧ resource.ref_str (API:=snapshot) "db-1" = "db-1"
  ∧ ¬ includes "db-1"
        "Expected Ready condition to have status False but found True".
Proof. by vm_compute. Qed.

Lemma failure_messages_hold_witness :
  status_failure_message (R:=snapshot) "db-1" "ACK.ResourceSynced" true
    (snapshot_of [ready_true])
    "Failed to find ACK.ResourceSynced condition in resource db-1"
  ∧ status_failure_message (R:=snapshot) "db-1" "Ready" false
      (snapshot_of [ready_true])
      "Expected Ready condition to have status False but found True"
  ∧ status_failure_message (R:=snapshot) "db-1" "Ready" true
      (snapshot_of [ready_unknown])
      "Expected Ready condition to have status True but found Unknown"
  ∧ status_failure_message (R:=snapshot) "db-1" "Ready" false
      (snapshot_of [ready_no_status])
      "Expected Ready condition to have status False but found None"
  ∧ terminal_failure_message (R:=snapshot) "db-1" "unknown field"
      (snapshot_of [terminal])
      "Expected Ready condition to have message containing 'unknown field' but found 'field X is immutable'"
  ∧ terminal_failure_message (R:=snapshot) "db-1" "immutable"
      (snapshot_of [terminal_no_reason])
      "Expected Ready condition to have reason 'Terminal error, the custom resource Spec needs to be updated before any further sync can occur' but found 'None'"
  ∧ terminal_failure_message (R:=snapshot) "db-1" "immutable"
      (snapshot_of [ready_true])
      "Expected Ready condition to have status False but found True".
Proof.
  pose proof (λ t b s st msg,
              failure_messages_hold (R:=snapshot) "db-1" t b s st msg)
    as Hclaim.
  split; [|split; [|split; [|split; [|split; [|split]]]]].
  - destruct (Hclaim "ACK.ResourceSynced" true "" (snapshot_of [ready_true])
                "Failed to find ACK.ResourceSynced condition in resource db-1")
      as (Htype & _).
    apply Htype. vm_compute; reflexivity.
  - destruct (Hclaim "" false "" (snapshot_of [ready_true])
                "Expected Ready condition to have status False but found True")
      as (_ & Hstatus & _).
    apply Hstatus. vm_compute; reflexivity.
  - destruct (Hclaim "" true "" (snapshot_of [ready_unknown])
                "Expected Ready condition to have status True but found Unknown")
      as (_ & _ & Hready & _).
    apply Hready. vm_compute; reflexivity.
  - destruct (Hclaim "" true "" (snapshot_of [ready_no_status])
                "Expected Ready condition to have status False but found None")
      as (_ & _ & _ & Hnotready & _).
    apply Hnotready. vm_compute; reflexivity.
  - destruct (Hclaim "" true "unknown field" (snapshot_of [terminal])
                "Expected Ready condition to have message containing 'unknown field' but found 'field X is immutable'")
      as (_ & _ & _ & _ & Hterminal).
    apply Hterminal. vm_compute; reflexivity.
  - destruct (Hclaim "" true "immutable" (snapshot_of [terminal_no_reason])
                "Expected Ready condition to have reason 'Terminal error, the custom resource Spec needs to be updated before any further sync can occur' but found 'None'")
      as (_ & _ & _ & _ & Hterminal).
    apply Hterminal. vm_compute; reflexivity.
  - destruct (Hclaim "" true "immutable" (snapshot_of [ready_true])
                "Expected Ready condition to have status False but found True")
      as (_ & _ & _ & _ & Hterminal).
    apply Hterminal. vm_compute; reflexivity.
Defined.

(** C8, as stated, fails: when the status check raises, [assert_terminal]
    has made one read, not two. *)
Lemma assert_terminal_one_read_when_absent :
  outcome (assert_terminal (R:=snapshot) "db-1" "immutable") (snapshot_of [])
  = Raise (condition_not_found (R:=snapshot) "db-1" "Ready")
  ∧ st_reads (final (assert_terminal (R:=snapshot) "db-1" "immutable")
                    (snapshot_of []))
    = [("db-1", "Ready")]
  ∧ length (st_reads (final (assert_terminal (R:=snapshot) "db-1" "immutable")
                            (snapshot_of [])))
    ≠ 2.
Proof. by vm_compute. Qed.

(** ** Further behaviour of the assertions *)

Section further.
Context `{R : resource.API}.

Lemma str_contains_empty (m : string) : str_contains "" m = true.
Proof. by destruct m. Qed.

Lemma includes_trans (a b c : string) :
  includes a b → includes b c → includes a c.
Proof.
  intros (p1 & q1 & ->)%str_contains_spec (p2 & q2 & ->)%str_contains_spec.
  apply str_contains_spec. exists (p2 +:+ p1), (q1 +:+ q2).
  by rewrite !str_app_assoc.
Qed.

(** X1: [assert_type_status ref t b] returns exactly when the accessor
    answers with a condition that has a [status] whose string form is the
    string form of [b]; a condition without [status] never passes. *)
Theorem assert_type_status_returns_iff ref t b st :
  outcome (assert_type_status ref t b) st = Ok ()
  ↔ ∃ d v, fetched ref t st = Some d
           ∧ d !! "status" = Some v ∧ str v = str (Bool b).
Proof.
  rewrite outcome_assert_type_status.
  destruct (fetched ref t st) as [d|]; [|naive_solver].
  cbn zeta. unfold dict_get.
  destruct (d !! "status") as [v|] eqn:Hv.
  - destruct (String.eqb_spec (str v) (str (Bool b))); naive_solver.
  - destruct b; cbn; naive_solver.
Qed.

(** X2: [assert_type_status] returns or fails through [pytest.fail]; the
    test for [None] keeps the field access from raising, and no other
    exception leaves the call. *)
Theorem assert_type_status_fails_only_through_pytest ref t b st :
  outcome (assert_type_status ref t b) st = Ok ()
  ∨ ∃ msg, outcome (assert_type_status ref t b) st = Raise (Failed msg).
Proof.
  rewrite outcome_assert_type_status.
  destruct (fetched ref t st) as [d|]; cbn zeta.
  - destruct (String.eqb _ _); [by left|]. right. by eexists.
  - right. by eexists.
Qed.

(** X3: from one state, the status check does not pass for both expected
    values; [assert_ready] and [assert_not_ready] never both return. *)
Theorem assert_ready_and_not_ready_exclude ref t st :
  ¬ (outcome (assert_type_status ref t true) st = Ok ()
     ∧ outcome (assert_type_status ref t false) st = Ok ())
  ∧ ¬ (outcome (assert_ready ref) st = Ok ()
       ∧ outcome (assert_not_ready ref) st = Ok ()).
Proof.
  assert (∀ t', ¬ (outcome (assert_type_status ref t' true) st = Ok ()
                   ∧ outcome (assert_type_status ref t' false) st = Ok ()))
    as Hexclude.
  { intros t'. rewrite !outcome_assert_type_status.
    destruct (fetched ref t' st) as [d|]; cbn zeta; [|by intros [? _]].
    destruct (String.eqb_spec (str (dict_get d "status" None_))
                              (str (Bool true))) as [Htrue|]; [|by intros [? _]].
    destruct (String.eqb_spec (str (dict_get d "status" None_))
                              (str (Bool false))) as [Hfalse|];
      [|by intros [_ ?]].
    rewrite Htrue in Hfalse. discriminate Hfalse. }
  split; [apply Hexclude|].
  unfold assert_ready, assert_not_ready, assert_ready_status. apply Hexclude.
Qed.

(** X4: when its status check raises, [assert_terminal] ends as
    [assert_type_status ref "Ready" False] ends: the same exception and the
    same state, whatever the expected message. *)
Theorem assert_terminal_status_failure ref s st e :
  outcome (assert_type_status ref "Ready" false) st = Raise e →
  assert_terminal ref s st = assert_type_status ref "Ready" false st.
Proof.
  intros Hstatus. rewrite assert_terminal_run, Hstatus.
  rewrite outcome_assert_type_status in Hstatus.
  rewrite assert_type_status_run. by rewrite Hstatus.
Qed.

(** X5: the reason is compared for equality.  When the status check
    returned and the condition fetched again has a [reason] other than
    [TERMINAL_REASON], also one that holds it, [assert_terminal] fails with
    a reason mismatch that shows the reason found; the message is not
    looked at. *)
Theorem assert_terminal_reason_must_be_equal ref s st d v :
  outcome (assert_type_status ref "Ready" false) st = Ok () →
  fetched ref "Ready" (after_read ref "Ready" st) = Some d →
  d !! "reason" = Some v →
  v ≠ Str TERMINAL_REASON →
  outcome (assert_terminal ref s) st = Raise (reason_mismatch v).
Proof.
  intros Hstatus Hfetch Hreason Hne.
  unfold outcome at 1. rewrite assert_terminal_run, Hstatus, Hfetch.
  cbn zeta. unfold dict_get at 1 3. rewrite Hreason.
  destruct (eqb v (Str TERMINAL_REASON)) eqn:Heq; [|done].
  by apply bool_decide_eq_true in Heq.
Qed.

(** X6: when status and reason pass and the [message] is a string in which
    the expected message does not occur, [assert_terminal] fails with a
    message mismatch that shows the expected and the found message. *)
Theorem assert_terminal_message_mismatch ref s st d m :
  outcome (assert_type_status ref "Ready" false) st = Ok () →
  fetched ref "Ready" (after_read ref "Ready" st) = Some d →
  d !! "reason" = Some (Str TERMINAL_REASON) →
  d !! "message" = Some (Str m) →
  ¬ includes s m →
  outcome (assert_terminal ref s) st = Raise (message_mismatch s (Str m)).
Proof.
  intros Hstatus Hfetch Hreason%reason_is_terminal Hmessage Hnot.
  unfold outcome at 1. rewrite assert_terminal_run, Hstatus, Hfetch.
  cbn zeta. rewrite Hreason. unfold dict_get. rewrite Hmessage.
  unfold includes in Hnot. by destruct (str_contains s m).
Qed.

(** X7: when status and reason pass and the [message] is not a string,
    be the key missing or its value [None], the substring test raises a
    [TypeError], for every expected message. *)
Theorem assert_terminal_message_not_a_string ref s st d :
  outcome (assert_type_status ref "Ready" false) st = Ok () →
  fetched ref "Ready" (after_read ref "Ready" st) = Some d →
  d !! "reason" = Some (Str TERMINAL_REASON) →
  (∀ m, d !! "message" ≠ Some (Str m)) →
  outcome (assert_terminal ref s) st = Raise TypeError.
Proof.
  intros Hstatus Hfetch Hreason%reason_is_terminal Hmessage.
  unfold outcome at 1. rewrite assert_terminal_run, Hstatus, Hfetch.
  cbn zeta. rewrite Hreason. unfold dict_get.
  destruct (d !! "message") as [[| |m]|]; try done.
  by destruct (Hmessage m).
Qed.

(** X8: when the status check returned and the second read answers [None],
    the field access on it raises an [AttributeError]. *)
Theorem assert_terminal_condition_gone ref s st :
  outcome (assert_type_status ref "Ready" false) st = Ok () →
  fetched ref "Ready" (after_read ref "Ready" st) = None →
  outcome (assert_terminal ref s) st = Raise AttributeError.
Proof.
  intros Hstatus Hfetch.
  unfold outcome at 1. by rewrite assert_terminal_run, Hstatus, Hfetch.
Qed.

(** X9: with the empty string as expected message, [assert_terminal]
    returns for every string [message] once status and reason pass. *)
Theorem assert_terminal_empty_expected_message ref st d m :
  outcome (assert_type_status ref "Ready" false) st = Ok () →
  fetched ref "Ready" (after_read ref "Ready" st) = Some d →
  d !! "reason" = Some (Str TERMINAL_REASON) →
  d !! "message" = Some (Str m) →
  outcome (assert_terminal ref "") st = Ok ().
Proof.
  intros Hstatus Hfetch Hreason%reason_is_terminal Hmessage.
  unfold outcome at 1. rewrite assert_terminal_run, Hstatus, Hfetch.
  cbn zeta. rewrite Hreason. unfold dict_get. rewrite Hmessage.
  by rewrite str_contains_empty.
Qed.

(** X10: when [assert_terminal] returns for an expected message, it returns
    from the same state for every string that occurs in that message. *)
Theorem assert_terminal_shorter_expected_message ref s s' st :
  outcome (assert_terminal ref s) st = Ok () →
  includes s' s →
  outcome (assert_terminal ref s') st = Ok ().
Proof.
  intros [Hfirst (d & m & Hd & Hr & Hm & Hin)]%assert_terminal_returns Hsub.
  apply assert_terminal_returns. split; [done|].
  exists d, m. eauto using includes_trans.
Qed.

(** X11: from a state from which [assert_terminal] returns,
    [assert_not_ready] returns and [assert_ready] fails with a status
    mismatch. *)
Theorem assert_terminal_implies_not_ready ref s st :
  outcome (assert_terminal ref s) st = Ok () →
  outcome (assert_not_ready ref) st = Ok ()
  ∧ ∃ actual, outcome (assert_ready ref) st
              = Raise (status_mismatch "Ready" true actual)
              ∧ str actual = "False".
Proof.
  intros [(d & v & Hd & Hv & Hstr) _]%assert_terminal_returns.
  unfold assert_ready, assert_not_ready, assert_ready_status.
  rewrite !outcome_assert_type_status, Hd. cbn zeta.
  unfold dict_get. rewrite Hv, Hstr. split; [done|]. by exists v.
Qed.

End further.

Lemma assert_terminal_status_failure_witness :
  outcome (assert_type_status (R:=snapshot) "db-1" "Ready" false)
          (snapshot_of [ready_true])
  = Raise (status_mismatch "Ready" false (Str "True"))
  ∧ assert_terminal (R:=snapshot) "db-1" "immutable" (snapshot_of [ready_true])
    = assert_type_status (R:=snapshot) "db-1" "Ready" false
                         (snapshot_of [ready_true]).
Proof.
  assert (outcome (assert_type_status (R:=snapshot) "db-1" "Ready" false)
                  (snapshot_of [ready_true])
          = Raise (status_mismatch "Ready" false (Str "True"))) as Hstatus
    by (vm_compute; reflexivity).
  split; [exact Hstatus|].
  exact (assert_terminal_status_failure
           (R:=snapshot) "db-1" "immutable" _ _ Hstatus).
Defined.

Lemma assert_terminal_reason_must_be_equal_witness :
  includes TERMINAL_REASON (TERMINAL_REASON +:+ ": field X is immutable")
  ∧ Str (TERMINAL_REASON +:+ ": field X is immutable") ≠ Str TERMINAL_REASON
  ∧ outcome (assert_terminal (R:=snapshot) "db-1" "immutable")
            (snapshot_of [terminal_longer_reason])
    = Raise (reason_mismatch
               (Str (TERMINAL_REASON +:+ ": field X is immutable"))).
Proof.
  assert (Str (TERMINAL_REASON +:+ ": field X is immutable")
          ≠ Str TERMINAL_REASON) as Hne by (vm_compute; discriminate).
  split; [vm_compute; reflexivity|]. split; [exact Hne|].
  apply (assert_terminal_reason_must_be_equal
           (R:=snapshot) "db-1" "immutable" _ terminal_longer_reason);
    [vm_compute; reflexivity .. | exact Hne].
Defined.

Lemma assert_terminal_message_mismatch_witness :
  ¬ includes "unknown field" "field X is immutable"
  ∧ outcome (assert_terminal (R:=snapshot) "db-1" "unknown field")
            (snapshot_of [terminal])
    = Raise (message_mismatch "unknown field" (Str "field X is immutable")).
Proof.
  assert (¬ includes "unknown field" "field X is immutable") as Hnot
    by (vm_compute; discriminate).
  split; [exact Hnot|].
  apply (assert_terminal_message_mismatch
           (R:=snapshot) "db-1" "unknown field" _ terminal);
    [vm_compute; reflexivity .. | exact Hnot].
Defined.

Lemma assert_terminal_message_not_a_string_witness :
  terminal_null_message !! "message" = Some None_
  ∧ outcome (assert_terminal (R:=snapshot) "db-1" "immutable")
            (snapshot_of [terminal_null_message])
    = Raise TypeError
  ∧ outcome (assert_terminal (R:=snapshot) "db-1" "")
            (snapshot_of [terminal_no_message])
    = Raise TypeError.
Proof.
  split; [vm_compute; reflexivity|]. split.
  - apply (assert_terminal_message_not_a_string
             (R:=snapshot) "db-1" "immutable" _ terminal_null_message);
      [vm_compute; reflexivity .. | intros m; vm_compute; discriminate].
  - apply (assert_terminal_message_not_a_string
             (R:=snapshot) "db-1" "" _ terminal_no_message);
      [vm_compute; reflexivity .. | intros m; vm_compute; discriminate].
Defined.

Lemma assert_terminal_condition_gone_witness :
  outcome (assert_type_status (R:=scripted) "db-1" "Ready" false)
          (script_of [Some terminal; None])
  = Ok ()
  ∧ fetched (R:=scripted) "db-1" "Ready"
      (after_read (R:=scripted) "db-1" "Ready"
                  (script_of [Some terminal; None]))
    = None
  ∧ outcome (assert_terminal (R:=scripted) "db-1" "immutable")
            (script_of [Some terminal; None])
    = Raise AttributeError.
Proof.
  assert (outcome (assert_type_status (R:=scripted) "db-1" "Ready" false)
                  (script_of [Some terminal; None]) = Ok ()) as Hstatus
    by (vm_compute; reflexivity).
  assert (fetched (R:=scripted) "db-1" "Ready"
            (after_read (R:=scripted) "db-1" "Ready"
                        (script_of [Some terminal; None])) = None) as Hfetch
    by reflexivity.
  split; [exact Hstatus|]. split; [exact Hfetch|].
  exact (assert_terminal_condition_gone
           (R:=scripted) "db-1" "immutable" _ Hstatus Hfetch).
Defined.

Lemma assert_terminal_empty_expected_message_witness :
  terminal !! "message" = Some (Str "field X is immutable")
  ∧ outcome (assert_terminal (R:=snapshot) "db-1" "") (snapshot_of [terminal])
    = Ok ().
Proof.
  split; [vm_compute; reflexivity|].
  apply (assert_terminal_empty_expected_message
           (R:=snapshot) "db-1" _ terminal "field X is immutable");
    vm_compute; reflexivity.
Defined.

Lemma assert_terminal_shorter_expected_message_witness :
  outcome (assert_terminal (R:=snapshot) "db-1" "X is immutable")
          (snapshot_of [terminal])
  = Ok ()
  ∧ includes "immutable" "X is immutable"
  ∧ outcome (assert_terminal (R:=snapshot) "db-1" "immutable")
            (snapshot_of [terminal])
    = Ok ().
Proof.
  assert (outcome (assert_terminal (R:=snapshot) "db-1" "X is immutable")
                  (snapshot_of [terminal]) = Ok ()) as Hlong
    by (vm_compute; reflexivity).
  assert (includes "immutable" "X is immutable") as Hsub
    by (vm_compute; reflexivity).
  split; [exact Hlong|]. split; [exact Hsub|].
  exact (assert_terminal_shorter_expected_message
           (R:=snapshot) "db-1" _ _ _ Hlong Hsub).
Defined.

Lemma assert_terminal_implies_not_ready_witness :
  outcome (assert_terminal (R:=snapshot) "db-1" "immutable")
          (snapshot_of [terminal])
  = Ok ()
  ∧ outcome (assert_not_ready (R:=snapshot) "db-1") (snapshot_of [terminal])
    = Ok ()
  ∧ ∃ actual,
      outcome (assert_ready (R:=snapshot) "db-1") (snapshot_of [terminal])
      = Raise (status_mismatch "Ready" true actual)
      ∧ str actual = "False".
Proof.
  assert (outcome (assert_terminal (R:=snapshot) "db-1" "immutable")
                  (snapshot_of [terminal]) = Ok ()) as Hterminal
    by (vm_compute; reflexivity).
  split; [exact Hterminal|].
  exact (assert_terminal_implies_not_ready
           (R:=snapshot) "db-1" "immutable" _ Hterminal).
Defined.

(** A [status] that is the Python [False] passes as the string does. *)
Example native_bool_status :
  outcome (assert_not_ready (R:=snapshot) "db-1")
          (snapshot_of [ready_native_false])
  = Ok ().
Proof. by vm_compute. Qed.
